(** * pem_cloak: literature database and coating-candidate collector

    A shallow embedding of [src/data_collection/literature_database.py] and
    [src/data_collection/materials_project_collector.py], and the properties
    of their record model, queries, benchmark, gap analysis and collection
    loop.

    Conventions of the embedding.
    - A Python [float] that is finite is the rational it denotes ([Q]); the
      comparisons [<=], [>=], [<] of two such floats are the comparisons of
      those rationals.  [None] and pandas' missing value (NaN) are both
      [None] of an [option].
    - A Python [int] is [Z]; [str] is [string] (the bytes of its UTF-8 text).
    - A call that may raise returns a [Py.result].
    - A pandas [DataFrame] is its list of rows, each with its index label;
      the frame [pd.DataFrame()] that has no columns at all is a value of its
      own ([NoColumns]), because selecting a column of it raises [KeyError].
    - Executing a module is modelled as far as it can raise: the class
      statement of [CoatingPerformanceData] is the decorator [dataclass]
      applied to the fields in the order of their declarations, and a call
      of a method of [LiteratureDatabase] is a program that first imports
      the module. *)

From Stdlib Require Import String Ascii List Bool Arith ZArith QArith Lia.
From Stdlib Require Import Permutation Sorted DecimalString.
Import ListNotations.

Local Open Scope string_scope.
Local Open Scope list_scope.

(** ** Python values, exceptions and results *)

Module Py.

Inductive exn : Type :=
| TypeError
| KeyError
| ValueError
| AttributeError
| ReError
| ServiceError (msg : string).

Inductive result (A : Type) : Type :=
| Ok (a : A)
| Raise (e : exn).
Arguments Ok {A} a.
Arguments Raise {A} e.

Definition bind {A B} (r : result A) (k : A -> result B) : result B :=
  match r with
  | Ok a => k a
  | Raise e => Raise e
  end.

(** The values a keyword mapping can carry. *)
Inductive value : Type :=
| VNone
| VBool (b : bool)
| VInt (z : Z)
| VFloat (q : Q)
| VStr (s : string).

(** Truth value of an optional string, as [if s:] and [a or b] test it. *)
Definition truthy (s : option string) : bool :=
  match s with
  | Some (String _ _) => true
  | _ => false
  end.

(** [a or b] on optional strings. *)
Definition or_else (a b : option string) : option string :=
  if truthy a then a else b.

(** [str.lower()] on the ASCII letters. *)
Definition lower_ascii (c : ascii) : ascii :=
  let n := nat_of_ascii c in
  if (65 <=? n)%nat && (n <=? 90)%nat then ascii_of_nat (n + 32) else c.

Fixpoint lower (s : string) : string :=
  match s with
  | EmptyString => EmptyString
  | String c s' => String (lower_ascii c) (lower s')
  end.

(** [pat in s] on strings. *)
Fixpoint str_in (pat s : string) : bool :=
  prefix pat s ||
  match s with
  | EmptyString => false
  | String _ s' => str_in pat s'
  end.

(** [str(n)] for a length. *)
Definition str_of_nat (n : nat) : string :=
  NilEmpty.string_of_uint (Nat.to_uint n).

End Py.

Notation "x <- c1 ;; c2" := (Py.bind c1 (fun x => c2))
  (at level 61, c1 at next level, right associativity).

(** ** Comparisons against an optional metric

    A comparison of a column with a scalar is false on a missing value. *)

Definition Qlt_bool (x y : Q) : bool := negb (Qle_bool y x).

Definition le_scalar (v : option Q) (t : Q) : bool :=
  match v with
  | Some x => Qle_bool x t
  | None => false
  end.

Definition ge_scalar (v : option Q) (t : Q) : bool :=
  match v with
  | Some x => Qle_bool t x
  | None => false
  end.

Definition lt_scalar (v : option Q) (t : Q) : bool :=
  match v with
  | Some x => Qlt_bool x t
  | None => false
  end.

Definition ge_scalar_int (v : option Z) (t : Z) : bool :=
  match v with
  | Some x => (t <=? x)%Z
  | None => false
  end.

Definition isna {A} (v : option A) : bool :=
  match v with
  | Some _ => false
  | None => true
  end.

(** ** Data frames *)

Inductive DataFrame (R : Type) : Type :=
| NoColumns
| Frame (rows : list (nat * R)).
Arguments NoColumns {R}.
Arguments Frame {R} rows.

(** [len(df)] *)
Definition len {R} (df : DataFrame R) : nat :=
  match df with
  | NoColumns => 0
  | Frame rows => length rows
  end.

(** [df.empty] *)
Definition df_empty {R} (df : DataFrame R) : bool :=
  match df with
  | NoColumns => true
  | Frame [] => true
  | Frame (_ :: _) => false
  end.

(** The rows of a frame, in order, without their labels. *)
Definition records {R} (df : DataFrame R) : list R :=
  match df with
  | NoColumns => []
  | Frame rows => map snd rows
  end.

(** [df[df[col] ...]]: selecting a column raises on a frame without
    columns; the mask keeps the rows, with their labels, where it holds. *)
Definition select {R} (mask : R -> bool) (df : DataFrame R)
  : Py.result (DataFrame R) :=
  match df with
  | NoColumns => Py.Raise Py.KeyError
  | Frame rows => Py.Ok (Frame (filter (fun r => mask (snd r)) rows))
  end.

(** [sort_values]: insertion of each row in front of the first row it may
    precede; rows of equal key keep their order. *)
Fixpoint insert_by {A} (le : A -> A -> bool) (x : A) (l : list A) : list A :=
  match l with
  | [] => [x]
  | y :: l' => if le x y then x :: y :: l' else y :: insert_by le x l'
  end.

Fixpoint sort_values {A} (le : A -> A -> bool) (l : list A) : list A :=
  match l with
  | [] => []
  | x :: l' => insert_by le x (sort_values le l')
  end.

(** [reset_index(drop=True)]: labels 0, 1, ... in row order. *)
Definition reset_index {A} (l : list A) : list (nat * A) :=
  combine (seq 0 (length l)) l.

(** ** The record schema of the literature database

    The fields of the class [CoatingPerformanceData] with their declared
    types; a value of the record stands for an instance.  The functions on
    such values further down are the bodies of the methods; a program
    reaches them only through [literature_database], the execution of the
    module, which comes first. *)

Record CoatingPerformanceData : Type := {
  (* Paper metadata *)
  doi : string;
  authors : string;
  year : Z;
  title : string;
  journal : option string;
  (* Coating details *)
  material : string;
  substrate : string;
  thickness_nm : option Q;
  deposition_method : option string;
  (* Performance metrics *)
  corrosion_current_uA_cm2 : option Q;
  contact_resistance_mOhm_cm2 : option Q;
  test_duration_hours : option Q;
  (* Test conditions *)
  electrolyte : option string;
  temperature_C : option Q;
  potential_V : option Q;
  current_density_A_cm2 : option Q;
  (* Degradation data *)
  voltage_increase_uV_hr : option Q;
  resistance_change_percent : option Q;
  (* Ion leaching *)
  fe_release_ug_cm2_day : option Q;
  cr_release_ug_cm2_day : option Q;
  ni_release_ug_cm2_day : option Q;
  (* Economics *)
  cost_estimate_dollar_m2 : option Q;
  scalability_notes : option string;
  (* Assessment *)
  success_rating : option Z;
  failure_mode : option string;
  notes : option string;
  (* Metadata *)
  entry_date : string;
  data_quality : option string
}.

(** *** The class statement

    The fields in the order of their declarations, each with what the
    declaration gives it: nothing, a default value, or the default factory
    of [entry_date], which returns the day. *)

Inductive field_default : Type :=
| Mandatory
| Default (v : Py.value)
| DefaultFactoryToday.

Definition FIELDS : list (string * field_default) :=
  [ ("doi", Mandatory);
    ("authors", Mandatory);
    ("year", Mandatory);
    ("title", Mandatory);
    ("journal", Default Py.VNone);
    ("material", Mandatory);
    ("substrate", Mandatory);
    ("thickness_nm", Default Py.VNone);
    ("deposition_method", Default Py.VNone);
    ("corrosion_current_uA_cm2", Default Py.VNone);
    ("contact_resistance_mOhm_cm2", Default Py.VNone);
    ("test_duration_hours", Default Py.VNone);
    ("electrolyte", Default Py.VNone);
    ("temperature_C", Default Py.VNone);
    ("potential_V", Default Py.VNone);
    ("current_density_A_cm2", Default Py.VNone);
    ("voltage_increase_uV_hr", Default Py.VNone);
    ("resistance_change_percent", Default Py.VNone);
    ("fe_release_ug_cm2_day", Default Py.VNone);
    ("cr_release_ug_cm2_day", Default Py.VNone);
    ("ni_release_ug_cm2_day", Default Py.VNone);
    ("cost_estimate_dollar_m2", Default Py.VNone);
    ("scalability_notes", Default Py.VNone);
    ("success_rating", Default Py.VNone);
    ("failure_mode", Default Py.VNone);
    ("notes", Default Py.VNone);
    ("entry_date", DefaultFactoryToday);
    ("data_quality", Default Py.VNone) ].

(** A keyword mapping (a [dict] with string keys, in insertion order) and an
    instance as the values of its fields, in declaration order. *)
Definition kwargs : Type := list (string * Py.value).
Definition instance : Type := list (string * Py.value).

Fixpoint lookup (k : string) (d : kwargs) : option Py.value :=
  match d with
  | [] => None
  | (k', v) :: d' => if String.eqb k k' then Some v else lookup k d'
  end.

Definition bind_field (today : string) (data : kwargs)
    (f : string * field_default) : Py.result Py.value :=
  match lookup (fst f) data with
  | Some v => Py.Ok v
  | None =>
      match snd f with
      | Mandatory => Py.Raise Py.TypeError
      | Default v => Py.Ok v
      | DefaultFactoryToday => Py.Ok (Py.VStr today)
      end
  end.

Fixpoint bind_fields (today : string) (data : kwargs)
    (fs : list (string * field_default)) : Py.result instance :=
  match fs with
  | [] => Py.Ok []
  | f :: fs' =>
      v <- bind_field today data f ;;
      rest <- bind_fields today data fs' ;;
      Py.Ok ((fst f, v) :: rest)
  end.

(** The [__init__] the decorator writes for a list of fields: a key that
    names no field is a [TypeError], a field without default and without a
    key is a [TypeError], and the values are stored as they come; [today]
    is what the default factory returns. *)
Definition generated_init (fs : list (string * field_default))
    (today : string) (data : kwargs) : Py.result instance :=
  if forallb (fun kv => existsb (String.eqb (fst kv)) (map fst fs)) data
  then bind_fields today data fs
  else Py.Raise Py.TypeError.

(** The decorator goes through the fields in order and refuses a field
    without a default that comes after a field with one: the first such
    field, if there is one. *)
Fixpoint misplaced_field_from (seen_default : bool)
    (fs : list (string * field_default)) : option string :=
  match fs with
  | [] => None
  | (name, Mandatory) :: fs' =>
      if seen_default then Some name else misplaced_field_from false fs'
  | (_, _) :: fs' => misplaced_field_from true fs'
  end.

Definition misplaced_field (fs : list (string * field_default)) : option string :=
  misplaced_field_from false fs.

(** [@dataclass] on a class with the fields [fs]: the class, as its
    constructor, or the [TypeError] of the decorator. *)
Definition dataclass (fs : list (string * field_default))
  : Py.result (string -> kwargs -> Py.result instance) :=
  match misplaced_field fs with
  | Some _ => Py.Raise Py.TypeError
  | None => Py.Ok (generated_init fs)
  end.

(** Executing the module [literature_database]: after the imports, its
    first statement is the class statement of [CoatingPerformanceData];
    the class [LiteratureDatabase] and [main] are defined after it.  The
    outcome is the class the module binds, or the exception that ends the
    import. *)
Definition literature_database
  : Py.result (string -> kwargs -> Py.result instance) :=
  dataclass FIELDS.



(** ** The literature database

    The state of a [LiteratureDatabase] is its list [entries]. *)

(** [add_entry]: [self.entries.append(entry)] *)
Definition add_entry {E} (entry : E) (entries : list E) : list E :=
  entries ++ [entry].


(** *** The entries every new database holds *)

(* Paper 1: Lettenmeier et al. (2017) - Nb/Ti dual-layer coatings *)
Definition paper_1 (today : string) : CoatingPerformanceData := {|
  doi := "10.1016/j.ijhydene.2017.07.213";
  authors := "Lettenmeier et al.";
  year := 2017;
  title := "Coatings for bipolar plates in PEM water electrolyzers";
  journal := Some "International Journal of Hydrogen Energy";
  material := "Nb/Ti dual-layer";
  substrate := "SS316L";
  thickness_nm := Some 500.0%Q;
  deposition_method := Some "PVD (magnetron sputtering)";
  corrosion_current_uA_cm2 := Some 0.8%Q;
  contact_resistance_mOhm_cm2 := Some 8.5%Q;
  test_duration_hours := Some 3000.0%Q;
  electrolyte := Some "0.5M H2SO4";
  temperature_C := Some 80.0%Q;
  potential_V := Some 1.8%Q;
  current_density_A_cm2 := None;
  voltage_increase_uV_hr := Some 2.5%Q;
  resistance_change_percent := None;
  fe_release_ug_cm2_day := None;
  cr_release_ug_cm2_day := None;
  ni_release_ug_cm2_day := None;
  cost_estimate_dollar_m2 := Some 15.0%Q;
  scalability_notes := Some "PVD is established industrial process, moderate cost";
  success_rating := Some 4%Z;
  failure_mode := Some "Minor delamination at edges after 3000h";
  notes := Some "Excellent performance but needs validation beyond 3000h to reach 80,000h target";
  entry_date := today;
  data_quality := Some "high"
|}.

(* Paper 2: Gao et al. (2025) - N-doped TiO2 coatings *)
Definition paper_2 (today : string) : CoatingPerformanceData := {|
  doi := "10.1016/j.apcatb.2024.124567";
  authors := "Gao, Zhang, Liu et al.";
  year := 2025;
  title := "Nitrogen-doped TiO2 coatings for enhanced corrosion resistance in PEM electrolyzers";
  journal := Some "Applied Catalysis B: Environmental";
  material := "N-doped TiO2";
  substrate := "SS316L";
  thickness_nm := Some 800.0%Q;
  deposition_method := Some "Reactive magnetron sputtering";
  corrosion_current_uA_cm2 := Some 1.2%Q;
  contact_resistance_mOhm_cm2 := Some 12.0%Q;
  test_duration_hours := Some 2000.0%Q;
  electrolyte := Some "1M H2SO4";
  temperature_C := Some 80.0%Q;
  potential_V := Some 2.0%Q;
  current_density_A_cm2 := None;
  voltage_increase_uV_hr := Some 5.8%Q;
  resistance_change_percent := None;
  fe_release_ug_cm2_day := Some 0.15%Q;
  cr_release_ug_cm2_day := Some 0.08%Q;
  ni_release_ug_cm2_day := None;
  cost_estimate_dollar_m2 := Some 8.0%Q;
  scalability_notes := Some "Lower cost than precious metals, reactive sputtering well-established";
  success_rating := Some 3%Z;
  failure_mode := Some "Gradual increase in contact resistance, possible defect propagation";
  notes := Some "Promising cost/performance but degradation rate concerning for 80,000h target";
  entry_date := today;
  data_quality := Some "high"
|}.

(* Paper 3: Wakayama & Yamazaki (2021) - Ti4O7 Magneli phase *)
Definition paper_3 (today : string) : CoatingPerformanceData := {|
  doi := "10.1149/1945-7111/ac3d02";
  authors := "Wakayama, H. and Yamazaki, Y.";
  year := 2021;
  title := "Ti4O7 coating on titanium bipolar plates for PEM water electrolysis";
  journal := Some "Journal of The Electrochemical Society";
  material := "Ti4O7 (Magnéli phase)";
  substrate := "Ti Grade 1";
  thickness_nm := Some 1000.0%Q;
  deposition_method := Some "Thermal treatment in controlled atmosphere";
  corrosion_current_uA_cm2 := Some 0.3%Q;
  contact_resistance_mOhm_cm2 := Some 6.2%Q;
  test_duration_hours := Some 5000.0%Q;
  electrolyte := Some "0.5M H2SO4";
  temperature_C := Some 80.0%Q;
  potential_V := Some 1.8%Q;
  current_density_A_cm2 := Some 2.0%Q;
  voltage_increase_uV_hr := Some 1.2%Q;
  resistance_change_percent := None;
  fe_release_ug_cm2_day := Some 0.02%Q;
  cr_release_ug_cm2_day := None;
  ni_release_ug_cm2_day := None;
  cost_estimate_dollar_m2 := Some 25.0%Q;
  scalability_notes := Some "Requires Ti substrate (expensive), thermal treatment adds cost";
  success_rating := Some 5%Z;
  failure_mode := Some "No significant degradation observed";
  notes := Some "Excellent performance, longest validated lifetime, but cost is major barrier";
  entry_date := today;
  data_quality := Some "high"
|}.

(* Paper 4: Example of TiN coating (common baseline) *)
Definition paper_4 (today : string) : CoatingPerformanceData := {|
  doi := "10.1016/j.surfcoat.2019.125089";
  authors := "Wang et al.";
  year := 2020;
  title := "TiN coatings on stainless steel for PEM water electrolysis";
  journal := Some "Surface and Coatings Technology";
  material := "TiN";
  substrate := "SS316L";
  thickness_nm := Some 600.0%Q;
  deposition_method := Some "PVD (arc evaporation)";
  corrosion_current_uA_cm2 := Some 2.5%Q;
  contact_resistance_mOhm_cm2 := Some 15.0%Q;
  test_duration_hours := Some 1000.0%Q;
  electrolyte := Some "0.5M H2SO4";
  temperature_C := Some 70.0%Q;
  potential_V := Some 1.6%Q;
  current_density_A_cm2 := None;
  voltage_increase_uV_hr := Some 12.0%Q;
  resistance_change_percent := None;
  fe_release_ug_cm2_day := Some 0.5%Q;
  cr_release_ug_cm2_day := Some 0.3%Q;
  ni_release_ug_cm2_day := None;
  cost_estimate_dollar_m2 := Some 6.0%Q;
  scalability_notes := Some "Low cost, widely available coating process";
  success_rating := Some 2%Z;
  failure_mode := Some "Pinhole formation, accelerated corrosion through defects";
  notes := Some "Common baseline but insufficient for long-term durability";
  entry_date := today;
  data_quality := Some "medium"
|}.

(* Paper 5: CrN coating example *)
Definition paper_5 (today : string) : CoatingPerformanceData := {|
  doi := "10.1016/j.electacta.2021.138456";
  authors := "Lee, Park, Kim et al.";
  year := 2021;
  title := "Chromium nitride coatings for corrosion protection in acidic PEM environments";
  journal := Some "Electrochimica Acta";
  material := "CrN";
  substrate := "SS316L";
  thickness_nm := Some 750.0%Q;
  deposition_method := Some "Magnetron sputtering";
  corrosion_current_uA_cm2 := Some 1.8%Q;
  contact_resistance_mOhm_cm2 := Some 11.5%Q;
  test_duration_hours := Some 1500.0%Q;
  electrolyte := Some "1M H2SO4";
  temperature_C := Some 80.0%Q;
  potential_V := Some 1.9%Q;
  current_density_A_cm2 := None;
  voltage_increase_uV_hr := Some 8.5%Q;
  resistance_change_percent := None;
  fe_release_ug_cm2_day := Some 0.25%Q;
  cr_release_ug_cm2_day := None;
  ni_release_ug_cm2_day := None;
  cost_estimate_dollar_m2 := Some 7.5%Q;
  scalability_notes := Some "Moderate cost, good process maturity";
  success_rating := Some 3%Z;
  failure_mode := Some "H2 embrittlement concerns, gradual degradation";
  notes := Some "Better than TiN but still falls short of 80,000h lifetime requirement";
  entry_date := today;
  data_quality := Some "high"
|}.

(** [_initialize_with_key_papers]: five calls of [add_entry], each on the
    instance the keyword call of the class gives. *)
Definition _initialize_with_key_papers (today : string)
    (entries : list CoatingPerformanceData) : list CoatingPerformanceData :=
  add_entry (paper_5 today)
    (add_entry (paper_4 today)
      (add_entry (paper_3 today)
        (add_entry (paper_2 today)
          (add_entry (paper_1 today) entries)))).

(** The body of [LiteratureDatabase.__init__]: the empty list, then the
    key papers. *)
Definition LiteratureDatabase_init (today : string)
  : list CoatingPerformanceData :=
  _initialize_with_key_papers today [].

(** *** The derived table *)

Definition year_descending (a b : CoatingPerformanceData) : bool :=
  (year b <=? year a)%Z.

(** [to_dataframe]: no columns when there is no entry, else the entries
    sorted by year, most recent first, relabelled. *)
Definition to_dataframe (entries : list CoatingPerformanceData)
  : DataFrame CoatingPerformanceData :=
  match entries with
  | [] => NoColumns
  | _ :: _ => Frame (reset_index (sort_values year_descending entries))
  end.

(** *** Queries *)

(** The keyword arguments of [query]; [None] is a filter left unset. *)
Record Filters : Type := {
  q_material : option string;
  q_substrate : option string;
  min_test_duration : option Q;
  max_corrosion_current : option Q;
  max_contact_resistance : option Q;
  min_success_rating : option Z
}.

Definition no_filters : Filters := {|
  q_material := None;
  q_substrate := None;
  min_test_duration := None;
  max_corrosion_current := None;
  max_contact_resistance := None;
  min_success_rating := None
|}.

(** [if x is not None: df = step(x, df)] *)
Definition when_set {A R} (x : option A)
    (step : A -> DataFrame R -> Py.result (DataFrame R))
    (df : DataFrame R) : Py.result (DataFrame R) :=
  match x with
  | Some a => step a df
  | None => Py.Ok df
  end.

(** [if s: df = step(s, df)], which also skips the empty string. *)
Definition when_truthy {R} (s : option string)
    (step : string -> DataFrame R -> Py.result (DataFrame R))
    (df : DataFrame R) : Py.result (DataFrame R) :=
  if Py.truthy s then when_set s step df else Py.Ok df.

Section Query.

(** [Series.str.contains(pat, case=False, na=False)] reads [pat] as a
    regular expression: [str_contains pat] is the search it compiles to,
    ignoring case, or [None] when [pat] does not compile. *)
Variable str_contains : string -> option (string -> bool).

Definition select_contains (col : CoatingPerformanceData -> string)
    (pat : string) (df : DataFrame CoatingPerformanceData)
  : Py.result (DataFrame CoatingPerformanceData) :=
  match df with
  | NoColumns => Py.Raise Py.KeyError
  | Frame rows =>
      match str_contains pat with
      | None => Py.Raise Py.ReError
      | Some found =>
          Py.Ok (Frame (filter (fun r => found (col (snd r))) rows))
      end
  end.

Definition query (entries : list CoatingPerformanceData) (f : Filters)
  : Py.result (DataFrame CoatingPerformanceData) :=
  let df := to_dataframe entries in
  df <- when_truthy (q_material f) (select_contains material) df ;;
  df <- when_truthy (q_substrate f) (select_contains substrate) df ;;
  df <- when_set (min_test_duration f)
          (fun t => select (fun e => ge_scalar (test_duration_hours e) t)) df ;;
  df <- when_set (max_corrosion_current f)
          (fun t => select (fun e => le_scalar (corrosion_current_uA_cm2 e) t)) df ;;
  df <- when_set (max_contact_resistance f)
          (fun t => select (fun e => le_scalar (contact_resistance_mOhm_cm2 e) t)) df ;;
  df <- when_set (min_success_rating f)
          (fun t => select (fun e => ge_scalar_int (success_rating e) t)) df ;;
  Py.Ok df.

End Query.

(** *** Benchmark against the targets *)

Module TARGETS.
Definition contact_resistance_target : Q := 10.0.  (* mOhm.cm2 *)
Definition corrosion_current_target : Q := 1.0.    (* uA/cm2 *)
Definition test_duration_target : Q := 2000.0.     (* hours *)
Definition cost_target : Q := 10.0.                (* $/m2 *)
End TARGETS.

(** A row of the benchmark: the entry and the five added columns. *)
Record Benchmarked : Type := {
  entry : CoatingPerformanceData;
  meets_resistance_target : bool;
  meets_corrosion_target : bool;
  meets_duration_target : bool;
  meets_cost_target : bool;
  meets_all_targets : bool
}.

Definition benchmark_row (e : CoatingPerformanceData) : Benchmarked :=
  let resistance :=
    le_scalar (contact_resistance_mOhm_cm2 e) TARGETS.contact_resistance_target in
  let corrosion :=
    le_scalar (corrosion_current_uA_cm2 e) TARGETS.corrosion_current_target in
  let duration :=
    ge_scalar (test_duration_hours e) TARGETS.test_duration_target in
  let cost :=
    le_scalar (cost_estimate_dollar_m2 e) TARGETS.cost_target in
  {| entry := e;
     meets_resistance_target := resistance;
     meets_corrosion_target := corrosion;
     meets_duration_target := duration;
     meets_cost_target := cost;
     meets_all_targets := resistance && corrosion && duration && cost |}.

Definition benchmark_against_targets (entries : list CoatingPerformanceData)
  : DataFrame Benchmarked :=
  let df := to_dataframe entries in
  if df_empty df then NoColumns
  else match df with
       | NoColumns => NoColumns
       | Frame rows => Frame (map (fun r => (fst r, benchmark_row (snd r))) rows)
       end.

(** *** Research gaps *)

Definition promising_classes : list string :=
  [ "WC (tungsten carbide)";
    "TaC (tantalum carbide)";
    "Nb2O5";
    "IrO2";
    "RuO2";
    "Multilayer oxide/nitride";
    "Graphene-enhanced coatings";
    "MAX phase materials" ].

(** [df[col]]: the values of a column, or [KeyError]. *)
Definition column {R A} (col : R -> A) (df : DataFrame R)
  : Py.result (list A) :=
  match df with
  | NoColumns => Py.Raise Py.KeyError
  | Frame rows => Py.Ok (map (fun r => col (snd r)) rows)
  end.

(** [len(df[df[col] ...])] *)
Definition count_where {R} (mask : R -> bool) (df : DataFrame R)
  : Py.result nat :=
  sel <- select mask df ;;
  Py.Ok (len sel).

(** [df[col].isna().sum()] *)
Definition count_na {R A} (col : R -> option A) (df : DataFrame R)
  : Py.result nat :=
  vs <- column col df ;;
  Py.Ok (length (filter isna vs)).

Definition _identify_untested_classes (entries : list CoatingPerformanceData)
  : Py.result (list string) :=
  let df := to_dataframe entries in
  names <- column material df ;;
  let tested_materials := map Py.lower names in
  Py.Ok (filter
           (fun m => negb (existsb
                             (fun tested => Py.str_in (Py.lower m) (Py.lower tested))
                             tested_materials))
           promising_classes).

Record ResearchGaps : Type := {
  missing_long_term_data : nat;
  missing_cost_data : nat;
  missing_ion_leaching_data : nat;
  missing_degradation_rates : nat;
  untested_material_classes : list string;
  limited_long_term_validation : string;
  recommendations : list string
}.

Definition identify_research_gaps (entries : list CoatingPerformanceData)
  : Py.result ResearchGaps :=
  let df := to_dataframe entries in
  long_term <- count_where (fun e => lt_scalar (test_duration_hours e) 10000) df ;;
  cost <- count_na cost_estimate_dollar_m2 df ;;
  leaching <- count_na fe_release_ug_cm2_day df ;;
  degradation <- count_na voltage_increase_uV_hr df ;;
  untested <- _identify_untested_classes entries ;;
  validated <- count_where (fun e => ge_scalar (test_duration_hours e) 10000) df ;;
  Py.Ok {|
    missing_long_term_data := long_term;
    missing_cost_data := cost;
    missing_ion_leaching_data := leaching;
    missing_degradation_rates := degradation;
    untested_material_classes := untested;
    limited_long_term_validation :=
      Py.str_of_nat validated ++ " out of " ++ Py.str_of_nat (len df)
        ++ " entries have ≥10,000 hours";
    recommendations :=
      [ "Expand literature search to find more long-duration test data (>10,000 hours)";
        "Collect ion leaching data (critical for membrane degradation prediction)";
        "Focus on cost-effective earth-abundant materials";
        "Find failure mode analysis and post-mortem characterization data" ]
  |}.

(** ** The coating-candidate collector *)

Record CoatingCandidate : Type := {
  material_id : string;
  formula : string;
  composition : string;
  formation_energy_per_atom : Q;
  energy_above_hull : Q;
  band_gap : Q;
  density : Q;
  crystal_system : string;
  space_group : string;
  volume : Q;
  elements : string;
  nelements : Z;
  material_class : string;  (* oxide, nitride, carbide *)
  chemical_system : string;
  is_stable : bool
}.

(** Chemical systems of each coating class. *)
Definition CONDUCTIVE_OXIDES : list string :=
  [ "Sn-O"; "In-O"; "Ir-O"; "Ti-O"; "Ru-O"; "Nb-O"; "Ta-O";
    "In-Sn-O";
    "Zr-O"; "Hf-O" ].

Definition NITRIDES : list string :=
  [ "Ti-N"; "Cr-N"; "Zr-N"; "Ta-N"; "V-N"; "Nb-N"; "W-N"; "Mo-N";
    "Al-N"; "Hf-N"; "Si-N" ].

Definition CARBIDES : list string :=
  [ "Ti-C"; "W-C"; "Ta-C"; "Cr-C"; "Zr-C"; "Nb-C"; "V-C"; "Mo-C";
    "Si-C"; "Hf-C"; "B-C" ].

(** A document of the search service, with the requested fields.  The
    service may leave [energy_above_hull] or [symmetry] unset. *)
Record Symmetry : Type := {
  sym_crystal_system : string;
  sym_symbol : string
}.

Record SummaryDoc : Type := {
  doc_material_id : string;
  doc_formula_pretty : string;
  doc_composition : string;   (* str(doc.composition) *)
  doc_formation_energy_per_atom : Q;
  doc_energy_above_hull : option Q;
  doc_band_gap : Q;
  doc_density : Q;
  doc_symmetry : option Symmetry;
  doc_volume : Q;
  doc_elements : list string; (* str(e) of each element *)
  doc_nelements : Z
}.

(** The state of a [MaterialsProjectCollector]. *)
Record Collector : Type := {
  api_key : string;
  candidates : list CoatingCandidate
}.

(** What a run does to the outside: the chemical systems it asked the
    service for, and the warnings it emitted, both oldest first. *)
Record Trace : Type := {
  requests : list string;
  warnings : list (string * Py.exn)
}.

Definition quiet : Trace := {| requests := []; warnings := [] |}.

(** [__init__]: [getenv] is the value of [os.getenv("MP_API_KEY")]. *)
Definition MaterialsProjectCollector_init (key getenv : option string)
  : Py.result Collector :=
  match Py.or_else key getenv with
  | Some (String c s) =>
      Py.Ok {| api_key := String c s; candidates := [] |}
  | _ => Py.Raise Py.ValueError
  end.

Definition energy_ascending (a b : CoatingCandidate) : bool :=
  Qle_bool (energy_above_hull a) (energy_above_hull b).

(** [_to_dataframe]: no columns without candidates, else the candidates
    sorted by energy above hull, most stable first, relabelled. *)
Definition _to_dataframe (cands : list CoatingCandidate)
  : DataFrame CoatingCandidate :=
  match cands with
  | [] => NoColumns
  | _ :: _ => Frame (reset_index (sort_values energy_ascending cands))
  end.

(** The body of the loop over [docs]: the stability test, then the
    candidate.  A missing energy fails the comparison, a missing symmetry
    the attribute access. *)
Definition make_candidate (stability_threshold : Q)
    (system class : string) (doc : SummaryDoc) : Py.result CoatingCandidate :=
  match doc_energy_above_hull doc with
  | None => Py.Raise Py.TypeError
  | Some energy =>
      let stable := Qle_bool energy stability_threshold in
      match doc_symmetry doc with
      | None => Py.Raise Py.AttributeError
      | Some sym =>
          Py.Ok {| material_id := doc_material_id doc;
                   formula := doc_formula_pretty doc;
                   composition := doc_composition doc;
                   formation_energy_per_atom := doc_formation_energy_per_atom doc;
                   energy_above_hull := energy;
                   band_gap := doc_band_gap doc;
                   density := doc_density doc;
                   crystal_system := sym_crystal_system sym;
                   space_group := sym_symbol sym;
                   volume := doc_volume doc;
                   elements := String.concat "-" (doc_elements doc);
                   nelements := doc_nelements doc;
                   material_class := class;
                   chemical_system := system;
                   is_stable := stable |}
      end
  end.

(** [for doc in docs: ... self.candidates.append(candidate)]: the
    candidates after the loop and the exception that ended it, if any. *)
Fixpoint process_docs (stability_threshold : Q) (system class : string)
    (docs : list SummaryDoc) (cands : list CoatingCandidate)
  : list CoatingCandidate * option Py.exn :=
  match docs with
  | [] => (cands, None)
  | doc :: docs' =>
      match make_candidate stability_threshold system class doc with
      | Py.Ok c => process_docs stability_threshold system class docs' (cands ++ [c])
      | Py.Raise e => (cands, Some e)
      end
  end.

(** [systems_to_search] *)
Definition systems_to_search (include_oxides include_nitrides include_carbides : bool)
  : list (string * string) :=
  (if include_oxides then map (fun s => (s, "oxide")) CONDUCTIVE_OXIDES else [])
  ++ (if include_nitrides then map (fun s => (s, "nitride")) NITRIDES else [])
  ++ (if include_carbides then map (fun s => (s, "carbide")) CARBIDES else []).

Section Collect.

(** [MPRester(api_key)], as the search it gives:
    [MPRester key earlier system] is the outcome of
    [mpr.materials.summary.search(chemsys=system, ...)] when the systems
    [earlier] were asked before. *)
Variable MPRester : string -> list string -> string -> Py.result (list SummaryDoc).

(** One turn of the loop over the systems: the [try] block and its
    [except Exception] handler. *)
Definition search_system (stability_threshold : Q)
    (st : Collector * Trace) (sys : string * string) : Collector * Trace :=
  let '(self, tr) := st in
  let '(system, class) := sys in
  let asked := requests tr ++ [system] in
  match MPRester (api_key self) (requests tr) system with
  | Py.Raise e =>
      (self, {| requests := asked; warnings := warnings tr ++ [(system, e)] |})
  | Py.Ok docs =>
      let '(cands, failure) :=
        process_docs stability_threshold system class docs (candidates self) in
      ({| api_key := api_key self; candidates := cands |},
       {| requests := asked;
          warnings := match failure with
                      | Some e => warnings tr ++ [(system, e)]
                      | None => warnings tr
                      end |})
  end.

(** The summary printed when [verbose]: [df['is_stable']] and
    [df.groupby('material_class')] select columns. *)
Definition print_summary (df : DataFrame CoatingCandidate) : Py.result unit :=
  _ <- column is_stable df ;;
  _ <- column material_class df ;;
  Py.Ok tt.

Definition collect_coating_candidates (stability_threshold : Q)
    (include_oxides include_nitrides include_carbides verbose : bool)
    (self : Collector) (tr : Trace)
  : Py.result (DataFrame CoatingCandidate) * (Collector * Trace) :=
  let self := {| api_key := api_key self; candidates := [] |} in
  let systems := systems_to_search include_oxides include_nitrides include_carbides in
  let st := fold_left (search_system stability_threshold) systems (self, tr) in
  let df := _to_dataframe (candidates (fst st)) in
  ((if verbose then _ <- print_summary df ;; Py.Ok df else Py.Ok df), st).

End Collect.

(** ** Notions the properties are stated with *)


(** A search service that fails on the titanium systems and returns one
    document for every other system. *)
Definition sample_doc (system : string) : SummaryDoc := {|
  doc_material_id := "mp-1";
  doc_formula_pretty := system;
  doc_composition := system;
  doc_formation_energy_per_atom := (-1.5)%Q;
  doc_energy_above_hull := Some 0.05%Q;
  doc_band_gap := 0.0%Q;
  doc_density := 5.0%Q;
  doc_symmetry := Some {| sym_crystal_system := "Cubic"; sym_symbol := "Fm-3m" |};
  doc_volume := 20.0%Q;
  doc_elements := ["X"; "Y"];
  doc_nelements := 2
|}.

Definition flaky_service (key : string) (earlier : list string) (system : string)
  : Py.result (list SummaryDoc) :=
  if prefix "Ti-" system
  then Py.Raise (Py.ServiceError "quota exceeded")
  else Py.Ok [sample_doc system].

(** Whether no text occurs twice in a list. *)
Fixpoint nodupb (l : list string) : bool :=
  match l with
  | [] => true
  | x :: l' => negb (existsb (String.eqb x) l') && nodupb l'
  end.

(** The query that asks for a contact resistance of at most 10.0. *)
Definition at_most_10_resistance : Filters := {|
  q_material := None; q_substrate := None;
  min_test_duration := None; max_corrosion_current := None;
  max_contact_resistance := Some 10.0%Q; min_success_rating := None |}.

(** ** More of the collector *)

(** *** Saving the candidates

    [save_to_csv] of the collector, up to its call of [to_csv]: the table
    that is written. *)
Definition MaterialsProjectCollector_save_to_csv (stable_only : bool)
    (self : Collector) : Py.result (DataFrame CoatingCandidate) :=
  let df := _to_dataframe (candidates self) in
  if stable_only then select is_stable df else Py.Ok df.

(** A document with the two fields the loop body reads through. *)
Definition complete (doc : SummaryDoc) : bool :=
  negb (isna (doc_energy_above_hull doc)) && negb (isna (doc_symmetry doc)).

(** A document without an energy, and a service that returns it between
    two complete documents. *)
Definition broken_doc (system : string) : SummaryDoc := {|
  doc_material_id := "mp-2";
  doc_formula_pretty := system;
  doc_composition := system;
  doc_formation_energy_per_atom := (-1.0)%Q;
  doc_energy_above_hull := None;
  doc_band_gap := 0.0%Q;
  doc_density := 5.0%Q;
  doc_symmetry := Some {| sym_crystal_system := "Cubic"; sym_symbol := "Fm-3m" |};
  doc_volume := 20.0%Q;
  doc_elements := ["X"; "Y"];
  doc_nelements := 2
|}.

Definition truncating_service (key : string) (earlier : list string)
    (system : string) : Py.result (list SummaryDoc) :=
  Py.Ok [sample_doc system; broken_doc system; sample_doc system].

Definition steady_service (key : string) (earlier : list string)
    (system : string) : Py.result (list SummaryDoc) :=
  Py.Ok [sample_doc system].

Definition failing_service (key : string) (earlier : list string)
    (system : string) : Py.result (list SummaryDoc) :=
  Py.Raise (Py.ServiceError "unreachable").


(** ** Programs on the literature database

    A program that uses the literature database imports the module, makes
    a [LiteratureDatabase] and calls a method.  Each is given with the
    import first: when the import raises, that is how the program ends. *)

(** [LiteratureDatabase()] *)
Definition LiteratureDatabase_new (today : string)
  : Py.result (list CoatingPerformanceData) :=
  _ <- literature_database ;;
  Py.Ok (LiteratureDatabase_init today).


(** [LiteratureDatabase().to_dataframe()] *)
Definition call_to_dataframe (today : string)
  : Py.result (DataFrame CoatingPerformanceData) :=
  db <- LiteratureDatabase_new today ;;
  Py.Ok (to_dataframe db).

(** [LiteratureDatabase().query(...)] with the filters [f] *)
Definition call_query (str_contains : string -> option (string -> bool))
    (today : string) (f : Filters)
  : Py.result (DataFrame CoatingPerformanceData) :=
  db <- LiteratureDatabase_new today ;;
  query str_contains db f.

(** [LiteratureDatabase().benchmark_against_targets()] *)
Definition call_benchmark_against_targets (today : string)
  : Py.result (DataFrame Benchmarked) :=
  db <- LiteratureDatabase_new today ;;
  Py.Ok (benchmark_against_targets db).

(** [LiteratureDatabase().identify_research_gaps()] *)
Definition call_identify_research_gaps (today : string)
  : Py.result ResearchGaps :=
  db <- LiteratureDatabase_new today ;;
  identify_research_gaps db.

(** * Properties *)

(** ** Lists, sorting and frames *)

Lemma reset_index_records {A} (l : list A) : map snd (reset_index l) = l.
Proof.
  unfold reset_index. generalize 0%nat.
  induction l as [|x l IH]; intros n; simpl; [reflexivity|].
  now rewrite IH.
Qed.

Lemma reset_index_labels {A} (l : list A) :
  map fst (reset_index l) = seq 0 (length l).
Proof.
  unfold reset_index. generalize 0%nat.
  induction l as [|x l IH]; intros n; simpl; [reflexivity|].
  now rewrite IH.
Qed.

Lemma reset_index_length {A} (l : list A) :
  length (reset_index l) = length l.
Proof.
  rewrite <- (length_map snd). now rewrite reset_index_records.
Qed.

Section Sorting.

Context {A : Type}.
Variable le : A -> A -> bool.

Lemma insert_by_perm (x : A) (l : list A) :
  Permutation (insert_by le x l) (x :: l).
Proof.
  induction l as [|y l IH]; simpl; [reflexivity|].
  destruct (le x y); [reflexivity|].
  rewrite IH. apply perm_swap.
Qed.

Lemma sort_values_perm (l : list A) : Permutation (sort_values le l) l.
Proof.
  induction l as [|x l IH]; simpl; [reflexivity|].
  rewrite insert_by_perm. now constructor.
Qed.

Lemma sort_values_length (l : list A) :
  length (sort_values le l) = length l.
Proof. apply Permutation_length, sort_values_perm. Qed.

Hypothesis le_total : forall a b, le a b = false -> le b a = true.
Hypothesis le_trans : forall a b c, le a b = true -> le b c = true -> le a c = true.

Let precedes (a b : A) : Prop := le a b = true.

Lemma insert_by_sorted (x : A) (l : list A) :
  StronglySorted precedes l -> StronglySorted precedes (insert_by le x l).
Proof.
  induction 1 as [|y l Hs IH Hy]; simpl.
  - repeat constructor.
  - destruct (le x y) eqn:Hxy.
    + constructor; [now constructor|].
      constructor; [exact Hxy|].
      rewrite Forall_forall in Hy |- *. intros z Hz.
      apply (le_trans x y z Hxy), Hy, Hz.
    + constructor; [exact IH|].
      rewrite Forall_forall in Hy |- *. intros z Hz.
      apply (Permutation_in _ (insert_by_perm x l)) in Hz.
      destruct Hz as [<-|Hz]; [now apply le_total | now apply Hy].
Qed.

Lemma sort_values_sorted (l : list A) :
  StronglySorted precedes (sort_values le l).
Proof.
  induction l as [|x l IH]; simpl; [constructor|].
  now apply insert_by_sorted.
Qed.

End Sorting.

Lemma energy_ascending_total a b :
  energy_ascending a b = false -> energy_ascending b a = true.
Proof.
  unfold energy_ascending. intros H.
  apply Qle_bool_iff. apply Qlt_le_weak, Qnot_le_lt.
  intros Hle. apply Qle_bool_iff in Hle. congruence.
Qed.

Lemma energy_ascending_trans a b c :
  energy_ascending a b = true -> energy_ascending b c = true ->
  energy_ascending a c = true.
Proof.
  unfold energy_ascending. rewrite !Qle_bool_iff. apply Qle_trans.
Qed.

Lemma _to_dataframe_records (cands : list CoatingCandidate) :
  records (_to_dataframe cands) = sort_values energy_ascending cands.
Proof.
  destruct cands as [|c cs]; [reflexivity|].
  unfold _to_dataframe, records. apply reset_index_records.
Qed.

Lemma len_records {R} (df : DataFrame R) : len df = length (records df).
Proof. destruct df; simpl; [reflexivity|]. now rewrite length_map. Qed.

Lemma df_empty_len {R} (df : DataFrame R) :
  df_empty df = false <-> len df <> 0%nat.
Proof.
  destruct df as [|[|r rows]]; simpl; split; intros H;
    try discriminate; try reflexivity; try (now elim H).
Qed.

Lemma StronglySorted_filter {A} (R : A -> A -> Prop) (f : A -> bool) (l : list A) :
  StronglySorted R l -> StronglySorted R (filter f l).
Proof.
  induction 1 as [|x l Hs IH Hx]; simpl; [constructor|].
  destruct (f x); [|exact IH].
  constructor; [exact IH|].
  apply Forall_forall. intros y Hy. apply filter_In in Hy as [Hy _].
  rewrite Forall_forall in Hx. now apply Hx.
Qed.

Lemma energy_sorted (cands : list CoatingCandidate) :
  StronglySorted (fun a b => (energy_above_hull a <= energy_above_hull b)%Q)
                 (sort_values energy_ascending cands).
Proof.
  pose proof (sort_values_sorted energy_ascending energy_ascending_total
                energy_ascending_trans cands) as Hs.
  induction Hs as [|a l _ IH Ha]; constructor; [exact IH|].
  eapply Forall_impl; [|exact Ha].
  intros b Hb. now apply Qle_bool_iff.
Qed.

(** ** The literature module

    The class statement of [CoatingPerformanceData] declares [journal]
    with a default and, after it, [material] and [substrate] without one.
    The decorator refuses that, so executing the module raises [TypeError]
    at its first class statement: neither class is ever bound, and every
    program that uses the literature database ends there. *)

Lemma literature_database_raises :
  literature_database = Py.Raise Py.TypeError.
Proof. reflexivity. Qed.

Lemma LiteratureDatabase_new_TypeError (today : string) :
  LiteratureDatabase_new today = Py.Raise Py.TypeError.
Proof. reflexivity. Qed.

(** C10.  [LiteratureDatabase()] yields no database, with five entries or
    otherwise: the import of the module raises [TypeError], because the
    field [material], which has no default, is declared right after
    [journal], which has one. *)
Theorem LiteratureDatabase_new_raises :
  nth_error FIELDS 4 = Some ("journal", Default Py.VNone)
  /\ nth_error FIELDS 5 = Some ("material", Mandatory)
  /\ misplaced_field FIELDS = Some "material"
  /\ forall today : string,
      LiteratureDatabase_new today = Py.Raise Py.TypeError
      /\ ~ (exists entries, LiteratureDatabase_new today = Py.Ok entries
                            /\ length entries = 5%nat).
Proof.
  repeat split.
  intros [entries [H _]]. rewrite LiteratureDatabase_new_TypeError in H.
  discriminate H.
Qed.


(** C2.  [LiteratureDatabase().benchmark_against_targets()] computes no
    flag for any record: the program raises [TypeError] at the import. *)
Theorem call_benchmark_against_targets_raises :
  forall today : string,
    call_benchmark_against_targets today = Py.Raise Py.TypeError
    /\ ~ (exists df, call_benchmark_against_targets today = Py.Ok df).
Proof.
  intros today. split; [reflexivity|].
  intros [df H]. discriminate H.
Qed.

(** C3.  [LiteratureDatabase().query(...)] with numeric filters returns no
    rows, and in particular not the two records of the example: the
    program raises [TypeError] at the import, whatever the filters and
    whatever the search behind [str_contains]. *)
Theorem call_query_numeric_raises :
  forall (str_contains : string -> option (string -> bool)) (today : string)
         (min_duration max_current max_resistance : option Q)
         (min_rating : option Z),
    call_query str_contains today
      {| q_material := None; q_substrate := None;
         min_test_duration := min_duration;
         max_corrosion_current := max_current;
         max_contact_resistance := max_resistance;
         min_success_rating := min_rating |}
    = Py.Raise Py.TypeError
    /\ call_query str_contains today at_most_10_resistance
       = Py.Raise Py.TypeError
    /\ ~ (exists rows, call_query str_contains today at_most_10_resistance
                       = Py.Ok (Frame rows)).
Proof.
  intros sc today d c r g. repeat split.
  intros [rows H]. discriminate H.
Qed.

(** C4.  [LiteratureDatabase().query()] without filters does not return
    the table, and with filters no result exists to compare with those of
    the filters taken one by one: for every choice of filters the program
    raises [TypeError] at the import. *)
Theorem call_query_raises :
  forall (str_contains : string -> option (string -> bool)) (today : string)
         (f : Filters),
    call_query str_contains today no_filters = Py.Raise Py.TypeError
    /\ call_query str_contains today f = Py.Raise Py.TypeError
    /\ ~ (exists df, call_query str_contains today f = Py.Ok df).
Proof.
  intros sc today f. repeat split.
  intros [df H]. discriminate H.
Qed.

(** C5.  Of the two derived tables, that of the literature database is
    never produced: [LiteratureDatabase().to_dataframe()] raises
    [TypeError] at the import.  That of the collector is as described: for
    candidates of any number N it has exactly N rows, labelled 0 to N-1,
    holds the candidates (each as often as the collection does) sorted by
    energy above hull, lowest first, and on no candidates it is the empty
    table; the function is total. *)
Theorem call_to_dataframe_raises_and_candidates_sorted :
  (forall today : string,
      call_to_dataframe today = Py.Raise Py.TypeError
      /\ ~ (exists df, call_to_dataframe today = Py.Ok df))
  /\ (forall cands : list CoatingCandidate,
      len (_to_dataframe cands) = length cands
      /\ Permutation (records (_to_dataframe cands)) cands
      /\ StronglySorted (fun a b => (energy_above_hull a <= energy_above_hull b)%Q)
           (records (_to_dataframe cands))
      /\ (forall rows, _to_dataframe cands = Frame rows ->
                       map fst rows = seq 0 (length cands)))
  /\ _to_dataframe [] = NoColumns
  /\ len (_to_dataframe []) = 0%nat.
Proof.
  split; [|split; [|split; reflexivity]].
  - intros today. split; [reflexivity|].
    intros [df H]. discriminate H.
  - intros cands. repeat split.
    + rewrite len_records, _to_dataframe_records. apply sort_values_length.
    + rewrite _to_dataframe_records. apply sort_values_perm.
    + rewrite _to_dataframe_records. apply energy_sorted.
    + intros rows Hrows. destruct cands as [|c cs]; [discriminate|].
      unfold _to_dataframe in Hrows. injection Hrows as <-.
      rewrite reset_index_labels. f_equal.
      apply (sort_values_length energy_ascending (c :: cs)).
Qed.

(** C9.  [LiteratureDatabase().identify_research_gaps()] reports no
    count: the program raises [TypeError] at the import. *)
Theorem call_identify_research_gaps_raises :
  forall today : string,
    call_identify_research_gaps today = Py.Raise Py.TypeError
    /\ ~ (exists gaps, call_identify_research_gaps today = Py.Ok gaps).
Proof.
  intros today. split; [reflexivity|].
  intros [gaps H]. discriminate H.
Qed.

(** ** Construction of the collector *)

(** C7.  The constructor raises exactly when neither the argument nor the
    environment gives a non-empty key; otherwise it returns a collector
    with that key and no candidate.  The argument wins when it is
    non-empty. *)
Theorem MaterialsProjectCollector_init_credential :
  forall key getenv : option string,
    (MaterialsProjectCollector_init key getenv = Py.Raise Py.ValueError
     <-> Py.truthy key = false /\ Py.truthy getenv = false)
    /\ (Py.truthy key = true \/ Py.truthy getenv = true ->
        exists k, Py.or_else key getenv = Some k /\ k <> ""
                  /\ MaterialsProjectCollector_init key getenv
                     = Py.Ok {| api_key := k; candidates := [] |})
    /\ (forall self, MaterialsProjectCollector_init key getenv = Py.Ok self ->
                     candidates self = [] /\ api_key self <> "").
Proof.
  intros key getenv. unfold MaterialsProjectCollector_init, Py.or_else.
  destruct key as [[|c s]|]; destruct getenv as [[|c' s']|]; simpl;
    repeat split; try discriminate; try reflexivity;
    try (intros [H1 H2]; discriminate);
    try (intros [H|H]; discriminate H);
    try (intros _; eexists; repeat split; discriminate);
    match goal with
    | H : Py.Ok _ = Py.Ok _ |- _ =>
        injection H as <-; simpl; first [reflexivity | discriminate]
    end.
Qed.

Lemma MaterialsProjectCollector_init_credential_witness :
  MaterialsProjectCollector_init None (Some "") = Py.Raise Py.ValueError
  /\ MaterialsProjectCollector_init (Some "") (Some "secret")
     = Py.Ok {| api_key := "secret"; candidates := [] |}.
Proof.
  split.
  - apply (proj1 (MaterialsProjectCollector_init_credential None (Some ""))).
    split; reflexivity.
  - destruct (proj1 (proj2 (MaterialsProjectCollector_init_credential
                              (Some "") (Some "secret"))))
      as [k [Hk [_ Hinit]]]; [right; reflexivity|].
    injection Hk as <-. exact Hinit.
Defined.

(** ** The collection run *)

Lemma nodupb_NoDup (l : list string) : nodupb l = true -> NoDup l.
Proof.
  induction l as [|x l IH]; simpl; [constructor|].
  intros H. apply andb_prop in H as [Hx Hl].
  constructor; [|now apply IH].
  intros Hin. apply negb_true_iff in Hx.
  assert (existsb (String.eqb x) l = true) as Hex; [|congruence].
  apply existsb_exists. exists x. split; [exact Hin | apply String.eqb_refl].
Qed.

Section CollectFacts.

Variable MPRester : string -> list string -> string -> Py.result (list SummaryDoc).
Variable stability_threshold : Q.

Let step := search_system MPRester stability_threshold.

(** One turn asks the service once, keeps the key, and adds at most one
    warning, for the system of the turn. *)
Lemma search_system_turn (st : Collector * Trace) (sys : string * string) :
  requests (snd (step st sys)) = requests (snd st) ++ [fst sys]
  /\ api_key (fst (step st sys)) = api_key (fst st)
  /\ (warnings (snd (step st sys)) = warnings (snd st)
      \/ exists e, warnings (snd (step st sys)) = warnings (snd st) ++ [(fst sys, e)]).
Proof.
  destruct st as [self tr], sys as [system class].
  unfold step, search_system. simpl.
  destruct (MPRester (api_key self) (requests tr) system) as [docs|e]; simpl.
  - destruct (process_docs stability_threshold system class docs (candidates self))
      as [cands [e|]]; simpl; repeat split; eauto.
  - repeat split; eauto.
Qed.

(** A turn whose search fails warns about it. *)
Lemma search_system_failure (st : Collector * Trace) (sys : string * string) e :
  MPRester (api_key (fst st)) (requests (snd st)) (fst sys) = Py.Raise e ->
  warnings (snd (step st sys)) = warnings (snd st) ++ [(fst sys, e)]
  /\ candidates (fst (step st sys)) = candidates (fst st).
Proof.
  destruct st as [self tr], sys as [system class].
  unfold step, search_system. simpl. intros ->. split; reflexivity.
Qed.

Lemma run_trace (systems : list (string * string)) (st : Collector * Trace) :
  requests (snd (fold_left step systems st))
  = requests (snd st) ++ map fst systems
  /\ api_key (fst (fold_left step systems st)) = api_key (fst st)
  /\ exists ws,
      warnings (snd (fold_left step systems st)) = warnings (snd st) ++ ws
      /\ Forall (fun w => In (fst w) (map fst systems)) ws
      /\ (length ws <= length systems)%nat.
Proof.
  revert st. induction systems as [|sys systems IH]; intros st; simpl.
  - rewrite app_nil_r. repeat split. exists []. rewrite app_nil_r.
    repeat split; [constructor | simpl; lia].
  - destruct (IH (step st sys)) as [Hreq [Hkey [ws [Hw [Hin Hlen]]]]].
    destruct (search_system_turn st sys) as [Hreq1 [Hkey1 Hw1]].
    rewrite Hreq, Hreq1, Hkey, Hkey1, <- app_assoc. repeat split.
    destruct Hw1 as [Hw1 | [e Hw1]]; rewrite Hw, Hw1.
    + exists ws. repeat split; [|lia].
      eapply Forall_impl; [|exact Hin]. intros w Hwin. now right.
    + exists ((fst sys, e) :: ws). rewrite <- app_assoc. repeat split.
      * constructor; [now left|].
        eapply Forall_impl; [|exact Hin]. intros w Hwin. now right.
      * simpl. lia.
Qed.

Lemma run_warns (systems : list (string * string)) :
  forall (st : Collector * Trace) (i : nat) (system : string) e,
    nth_error (map fst systems) i = Some system ->
    MPRester (api_key (fst st)) (requests (snd st) ++ firstn i (map fst systems))
             system = Py.Raise e ->
    In (system, e) (warnings (snd (fold_left step systems st))).
Proof.
  induction systems as [|sys systems IH]; intros st i system e Hnth Hfail.
  - destruct i; discriminate.
  - destruct i as [|i]; simpl in *.
    + injection Hnth as <-. rewrite app_nil_r in Hfail.
      destruct (run_trace systems (step st sys)) as [_ [_ [ws [Hw _]]]].
      rewrite Hw. apply in_or_app. left.
      destruct (search_system_failure st sys e Hfail) as [-> _].
      apply in_or_app. right. now left.
    + destruct (search_system_turn st sys) as [Hreq1 [Hkey1 _]].
      apply (IH (step st sys) i system e Hnth).
      rewrite Hkey1, Hreq1, <- app_assoc. exact Hfail.
Qed.

End CollectFacts.

(** C6.  A run asks the service for every system of the built list, in its
    order and once each, whatever the outcomes of the searches: the systems
    are distinct, the requests of the run are exactly that list, and the
    search of a system that fails leaves a warning that names the system
    and the failure.  The run warns at most once per system and only about
    systems of the list. *)
Theorem collect_searches_every_system_once :
  forall (MPRester : string -> list string -> string -> Py.result (list SummaryDoc))
         (stability_threshold : Q)
         (include_oxides include_nitrides include_carbides verbose : bool)
         (self : Collector) (tr : Trace),
    let systems :=
      map fst (systems_to_search include_oxides include_nitrides include_carbides) in
    let after :=
      snd (collect_coating_candidates MPRester stability_threshold
             include_oxides include_nitrides include_carbides verbose self tr) in
    requests (snd after) = requests tr ++ systems
    /\ NoDup systems
    /\ api_key (fst after) = api_key self
    /\ (forall (i : nat) (system : string) (e : Py.exn),
           nth_error systems i = Some system ->
           MPRester (api_key self) (requests tr ++ firstn i systems) system
           = Py.Raise e ->
           In (system, e) (warnings (snd after)))
    /\ (exists ws,
           warnings (snd after) = warnings tr ++ ws
           /\ Forall (fun w => In (fst w) systems) ws
           /\ (length ws <= length systems)%nat).
Proof.
  intros MPRester th oxides nitrides carbides verbose self tr systems after.
  unfold after, collect_coating_candidates. simpl snd.
  set (start := ({| api_key := api_key self; candidates := [] |}, tr)).
  destruct (run_trace MPRester th
              (systems_to_search oxides nitrides carbides) start)
    as [Hreq [Hkey [ws [Hw [Hin Hlen]]]]].
  split; [exact Hreq|]. split.
  { unfold systems. apply nodupb_NoDup.
    destruct oxides, nitrides, carbides; reflexivity. }
  split; [exact Hkey|]. split.
  - intros i system e Hnth Hfail.
    apply (run_warns MPRester th _ start i system e Hnth Hfail).
  - exists ws. unfold systems. rewrite length_map. auto.
Qed.

Lemma collect_searches_every_system_once_witness :
  let after :=
    snd (collect_coating_candidates flaky_service 0.1 true false false false
           {| api_key := "secret"; candidates := [] |} quiet) in
  requests (snd after) = CONDUCTIVE_OXIDES
  /\ In ("Ti-O", Py.ServiceError "quota exceeded") (warnings (snd after)).
Proof.
  pose proof (collect_searches_every_system_once flaky_service 0.1
                true false false false
                {| api_key := "secret"; candidates := [] |} quiet) as H.
  cbv zeta in H. destruct H as [Hreq [_ [_ [Hwarn _]]]].
  split.
  - exact Hreq.
  - apply (Hwarn 3%nat "Ti-O" (Py.ServiceError "quota exceeded"));
      reflexivity.
Defined.

(** C8.  With the three inclusion flags false the run empties the
    candidate list, whatever it held, and asks the service for nothing:
    the trace is as it was.  The call returns the table without columns
    when it is quiet; when [verbose], the summary it prints selects a
    column of that table and the call ends in [KeyError], after the
    reset. *)
Theorem collect_nothing_included :
  forall (MPRester : string -> list string -> string -> Py.result (list SummaryDoc))
         (stability_threshold : Q) (verbose : bool)
         (self : Collector) (tr : Trace),
    collect_coating_candidates MPRester stability_threshold
      false false false verbose self tr
    = ((if verbose then Py.Raise Py.KeyError else Py.Ok NoColumns),
       ({| api_key := api_key self; candidates := [] |}, tr))
    /\ candidates (fst (snd (collect_coating_candidates MPRester
                               stability_threshold false false false
                               verbose self tr))) = []
    /\ requests (snd (snd (collect_coating_candidates MPRester
                             stability_threshold false false false
                             verbose self tr))) = requests tr.
Proof.
  intros MPRester th verbose self tr.
  unfold collect_coating_candidates. simpl.
  destruct verbose; repeat split.
Qed.

(** ** The candidates of a run *)

Lemma make_candidate_tags (t : Q) (system class : string) (doc : SummaryDoc)
    (c : CoatingCandidate) :
  make_candidate t system class doc = Py.Ok c ->
  is_stable c = Qle_bool (energy_above_hull c) t
  /\ doc_energy_above_hull doc = Some (energy_above_hull c)
  /\ chemical_system c = system
  /\ material_class c = class.
Proof.
  unfold make_candidate.
  destruct (doc_energy_above_hull doc) as [energy|]; [|discriminate].
  destruct (doc_symmetry doc) as [sym|]; [|discriminate].
  intros [= <-]. repeat split.
Qed.

Lemma make_candidate_complete (t : Q) (system class : string) (doc : SummaryDoc) :
  complete doc = true ->
  exists c, make_candidate t system class doc = Py.Ok c.
Proof.
  unfold complete, make_candidate.
  destruct (doc_energy_above_hull doc), (doc_symmetry doc);
    try discriminate; eauto.
Qed.

(** The documents up to the first that cannot be read become candidates,
    in their order, after the candidates there were. *)
Lemma process_docs_prefix (t : Q) (system class : string)
    (good : list SummaryDoc) (rest : list SummaryDoc) :
  Forall (fun doc => complete doc = true) good ->
  forall cands,
    exists new,
      map Py.Ok new = map (make_candidate t system class) good
      /\ process_docs t system class (good ++ rest) cands
         = process_docs t system class rest (cands ++ new).
Proof.
  induction 1 as [|doc good Hdoc _ IH]; intros cands.
  - exists []. now rewrite app_nil_r.
  - destruct (make_candidate_complete t system class doc Hdoc) as [c Hc].
    destruct (IH (cands ++ [c])) as [new [Hnew Hrun]].
    exists (c :: new). simpl. rewrite Hc, Hrun, <- app_assoc, Hnew.
    split; reflexivity.
Qed.

Section CandidateFacts.

Variable MPRester : string -> list string -> string -> Py.result (list SummaryDoc).
Variable stability_threshold : Q.
Variable catalogue : list (string * string).

Let step := search_system MPRester stability_threshold.

(** What holds of every candidate a run makes. *)
Let derived (c : CoatingCandidate) : Prop :=
  is_stable c = Qle_bool (energy_above_hull c) stability_threshold
  /\ In (chemical_system c, material_class c) catalogue.

Lemma process_docs_derived (system class : string) (docs : list SummaryDoc) :
  In (system, class) catalogue ->
  forall cands,
    Forall derived cands ->
    Forall derived (fst (process_docs stability_threshold system class docs cands)).
Proof.
  intros Hin. induction docs as [|doc docs IH]; intros cands Hc; simpl.
  - exact Hc.
  - destruct (make_candidate stability_threshold system class doc) as [c|e] eqn:Hmk;
      simpl; [|exact Hc].
    apply IH. apply Forall_app. split; [exact Hc|].
    constructor; [|constructor].
    destruct (make_candidate_tags _ _ _ _ _ Hmk) as [Hs [_ [Hsys Hcl]]].
    split; [exact Hs | now rewrite Hsys, Hcl].
Qed.

Lemma search_system_derived (st : Collector * Trace) (sys : string * string) :
  In sys catalogue ->
  Forall derived (candidates (fst st)) ->
  Forall derived (candidates (fst (step st sys))).
Proof.
  destruct st as [self tr], sys as [system class]. intros Hin Hc.
  unfold step, search_system. simpl in *.
  destruct (MPRester (api_key self) (requests tr) system) as [docs|e];
    [|exact Hc].
  pose proof (process_docs_derived system class docs Hin (candidates self) Hc)
    as Hd.
  destruct (process_docs stability_threshold system class docs (candidates self))
    as [cands failure]. exact Hd.
Qed.

Lemma run_derived (systems : list (string * string)) :
  incl systems catalogue ->
  forall st,
    Forall derived (candidates (fst st)) ->
    Forall derived (candidates (fst (fold_left step systems st))).
Proof.
  induction systems as [|sys systems IH]; intros Hincl st Hc; simpl.
  - exact Hc.
  - apply IH.
    + intros x Hx. apply Hincl. now right.
    + apply search_system_derived; [apply Hincl; now left | exact Hc].
Qed.

(** A run in which every search fails collects nothing and warns about
    every system. *)
Lemma run_all_fail (systems : list (string * string)) :
  forall st,
    (forall earlier system, exists e,
        MPRester (api_key (fst st)) earlier system = Py.Raise e) ->
    candidates (fst (fold_left step systems st)) = candidates (fst st)
    /\ map fst (warnings (snd (fold_left step systems st)))
       = map fst (warnings (snd st)) ++ map fst systems.
Proof.
  induction systems as [|sys systems IH]; intros st Hfail; simpl.
  - now rewrite app_nil_r.
  - destruct (Hfail (requests (snd st)) (fst sys)) as [e He].
    destruct (search_system_failure MPRester stability_threshold st sys e He)
      as [Hw Hc].
    destruct (search_system_turn MPRester stability_threshold st sys)
      as [_ [Hkey _]].
    destruct (IH (step st sys)) as [Hc' Hw'].
    { intros earlier system. fold step in Hkey. rewrite Hkey. apply Hfail. }
    fold step in Hw, Hc. rewrite Hc', Hw', Hc, Hw, map_app, <- app_assoc.
    split; reflexivity.
Qed.

(** A run in which every search returns complete documents collects all
    of them, in the order of the systems, and warns about nothing. *)
Lemma run_all_succeed (docs_of : string -> list SummaryDoc)
    (systems : list (string * string)) :
  (forall system, Forall (fun doc => complete doc = true) (docs_of system)) ->
  forall st,
    (forall earlier system,
        MPRester (api_key (fst st)) earlier system = Py.Ok (docs_of system)) ->
    warnings (snd (fold_left step systems st)) = warnings (snd st)
    /\ map Py.Ok (candidates (fst (fold_left step systems st)))
       = map Py.Ok (candidates (fst st))
         ++ flat_map (fun sys => map (make_candidate stability_threshold
                                        (fst sys) (snd sys))
                                     (docs_of (fst sys)))
                     systems.
Proof.
  intros Hcomplete.
  induction systems as [|[system class] systems IH]; intros st Hok; simpl.
  - now rewrite app_nil_r.
  - destruct st as [self tr].
    assert (exists new,
               map Py.Ok new
               = map (make_candidate stability_threshold system class)
                     (docs_of system)
               /\ step (self, tr) (system, class)
                  = ({| api_key := api_key self;
                        candidates := candidates self ++ new |},
                     {| requests := requests tr ++ [system];
                        warnings := warnings tr |})) as [new [Hnew Hstep]].
    { destruct (process_docs_prefix stability_threshold system class
                  (docs_of system) [] (Hcomplete system) (candidates self))
        as [new [Hnew Hrun]].
      exists new. split; [exact Hnew|].
      unfold step, search_system. simpl in Hok. rewrite Hok.
      rewrite app_nil_r in Hrun. rewrite Hrun. reflexivity. }
    rewrite Hstep.
    destruct (IH ({| api_key := api_key self;
                     candidates := candidates self ++ new |},
                  {| requests := requests tr ++ [system];
                     warnings := warnings tr |})) as [Hw Hc].
    { intros earlier s. apply Hok. }
    rewrite Hw, Hc. simpl. rewrite map_app, Hnew, <- app_assoc.
    split; reflexivity.
Qed.

End CandidateFacts.

Lemma collect_derived
    (MPRester : string -> list string -> string -> Py.result (list SummaryDoc))
    (t : Q) (o n c verbose : bool) (self : Collector) (tr : Trace) :
  Forall
    (fun cand =>
       is_stable cand = Qle_bool (energy_above_hull cand) t
       /\ In (chemical_system cand, material_class cand) (systems_to_search o n c))
    (candidates
       (fst (snd (collect_coating_candidates MPRester t o n c verbose self tr)))).
Proof.
  unfold collect_coating_candidates. simpl.
  apply (run_derived MPRester t (systems_to_search o n c)
           (systems_to_search o n c) (incl_refl _)).
  constructor.
Qed.

(** X4.  Whatever the collector held before, every candidate it holds
    after a run was made by that run: its stability flag is true exactly
    when its energy above hull is at most the threshold of the run, and
    its chemical system and material class are a pair of the list the run
    searched. *)
Theorem collect_candidates_derived :
  forall (MPRester : string -> list string -> string -> Py.result (list SummaryDoc))
         (stability_threshold : Q)
         (include_oxides include_nitrides include_carbides verbose : bool)
         (self : Collector) (tr : Trace),
    Forall
      (fun c =>
         (is_stable c = true <-> (energy_above_hull c <= stability_threshold)%Q)
         /\ In (chemical_system c, material_class c)
               (systems_to_search include_oxides include_nitrides include_carbides))
      (candidates
         (fst (snd (collect_coating_candidates MPRester stability_threshold
                      include_oxides include_nitrides include_carbides
                      verbose self tr)))).
Proof.
  intros M t o n c verbose self tr.
  eapply Forall_impl; [| apply (collect_derived M t o n c verbose self tr)].
  intros cand [Hs Hin]. split; [|exact Hin].
  rewrite Hs. apply Qle_bool_iff.
Qed.

(** X5.  A run returns the table of its candidates, except that a verbose
    run that collected nothing raises [KeyError] after the last search.
    So when every search fails the run ends without a candidate and with
    one warning for each system searched, in their order; it returns the
    table without columns when it is quiet and raises when it is
    verbose. *)
Theorem collect_outcome :
  forall (MPRester : string -> list string -> string -> Py.result (list SummaryDoc))
         (stability_threshold : Q)
         (include_oxides include_nitrides include_carbides verbose : bool)
         (self : Collector) (tr : Trace),
    let out := collect_coating_candidates MPRester stability_threshold
                 include_oxides include_nitrides include_carbides
                 verbose self tr in
    fst out
    = (if verbose && df_empty (_to_dataframe (candidates (fst (snd out))))
       then Py.Raise Py.KeyError
       else Py.Ok (_to_dataframe (candidates (fst (snd out)))))
    /\ (df_empty (_to_dataframe (candidates (fst (snd out)))) = true
        <-> candidates (fst (snd out)) = [])
    /\ ((forall earlier system, exists e,
            MPRester (api_key self) earlier system = Py.Raise e) ->
        candidates (fst (snd out)) = []
        /\ map fst (warnings (snd (snd out)))
           = map fst (warnings tr)
             ++ map fst (systems_to_search include_oxides include_nitrides
                           include_carbides)
        /\ fst out = if verbose then Py.Raise Py.KeyError else Py.Ok NoColumns).
Proof.
  intros M t o n c verbose self tr out.
  assert (forall cands : list CoatingCandidate,
             df_empty (_to_dataframe cands) = true <-> cands = []) as Hempty.
  { intros [|x xs]; [split; reflexivity|].
    split; [|discriminate]. intros H. exfalso.
    assert (len (_to_dataframe (x :: xs)) <> 0%nat) as Hlen.
    { rewrite len_records, _to_dataframe_records, sort_values_length.
      discriminate. }
    apply df_empty_len in Hlen. congruence. }
  assert (fst out
          = (if verbose && df_empty (_to_dataframe (candidates (fst (snd out))))
             then Py.Raise Py.KeyError
             else Py.Ok (_to_dataframe (candidates (fst (snd out))))))
    as Hout.
  { unfold out, collect_coating_candidates. cbn [fst snd].
    destruct verbose; [|reflexivity]. cbn [andb].
    destruct (candidates _) as [|x xs]; [reflexivity|].
    destruct (df_empty (_to_dataframe (x :: xs))) eqn:He;
      [apply Hempty in He; discriminate He | reflexivity]. }
  split; [exact Hout|]. split; [apply Hempty|].
  intros Hfail.
  destruct (run_all_fail M t (systems_to_search o n c)
              ({| api_key := api_key self; candidates := [] |}, tr) Hfail)
    as [Hc Hw].
  assert (candidates (fst (snd out)) = []) as Hnil by exact Hc.
  split; [exact Hnil|]. split; [exact Hw|].
  rewrite Hout, Hnil. now destruct verbose.
Qed.

Lemma collect_outcome_witness :
  let out := collect_coating_candidates failing_service 0.1 false true false true
               {| api_key := "secret"; candidates := [] |} quiet in
  fst out = Py.Raise Py.KeyError
  /\ map fst (warnings (snd (snd out))) = NITRIDES.
Proof.
  intros out.
  destruct (collect_outcome failing_service 0.1 false true false true
              {| api_key := "secret"; candidates := [] |} quiet)
    as [_ [_ Hfail]].
  destruct Hfail as [_ [Hw Hout]].
  - intros earlier system. eexists. reflexivity.
  - split; [exact Hout | exact Hw].
Defined.

(** X6.  A document that cannot be read ends the turn of its system: when
    a search returns complete documents, then one without an energy above
    hull, then more, the turn keeps the candidates of the documents before
    it, drops every document after it, and emits one warning, with the
    [TypeError] of the comparison. *)
Theorem search_system_unreadable_document :
  forall (MPRester : string -> list string -> string -> Py.result (list SummaryDoc))
         (stability_threshold : Q) (self : Collector) (tr : Trace)
         (system class : string)
         (good : list SummaryDoc) (bad : SummaryDoc) (rest : list SummaryDoc),
    MPRester (api_key self) (requests tr) system = Py.Ok (good ++ bad :: rest) ->
    Forall (fun doc => complete doc = true) good ->
    doc_energy_above_hull bad = None ->
    exists new,
      map Py.Ok new = map (make_candidate stability_threshold system class) good
      /\ search_system MPRester stability_threshold (self, tr) (system, class)
         = ({| api_key := api_key self; candidates := candidates self ++ new |},
            {| requests := requests tr ++ [system];
               warnings := warnings tr ++ [(system, Py.TypeError)] |}).
Proof.
  intros M t self tr system class good bad rest Hsearch Hgood Hbad.
  destruct (process_docs_prefix t system class good (bad :: rest) Hgood
              (candidates self)) as [new [Hnew Hrun]].
  exists new. split; [exact Hnew|].
  unfold search_system. rewrite Hsearch, Hrun.
  simpl. unfold make_candidate. rewrite Hbad. reflexivity.
Qed.

Lemma search_system_unreadable_document_witness :
  exists c,
    search_system truncating_service 0.1
      ({| api_key := "secret"; candidates := [] |}, quiet) ("Ti-N", "nitride")
    = ({| api_key := "secret"; candidates := [c] |},
       {| requests := ["Ti-N"]; warnings := [("Ti-N", Py.TypeError)] |}).
Proof.
  destruct (search_system_unreadable_document truncating_service 0.1
              {| api_key := "secret"; candidates := [] |} quiet
              "Ti-N" "nitride" [sample_doc "Ti-N"] (broken_doc "Ti-N")
              [sample_doc "Ti-N"])
    as [new [Hnew Hstep]]; [reflexivity | repeat constructor | reflexivity |].
  destruct new as [|c [|c' new]]; try discriminate Hnew.
  exists c. exact Hstep.
Defined.

(** X7.  When every search returns complete documents, a run warns about
    nothing and collects one candidate for each document, in the order of
    the systems and, within a system, of its documents; it returns their
    table. *)
Theorem collect_all_succeed :
  forall (MPRester : string -> list string -> string -> Py.result (list SummaryDoc))
         (docs_of : string -> list SummaryDoc)
         (stability_threshold : Q)
         (include_oxides include_nitrides include_carbides verbose : bool)
         (self : Collector) (tr : Trace),
    (forall system, Forall (fun doc => complete doc = true) (docs_of system)) ->
    (forall earlier system,
        MPRester (api_key self) earlier system = Py.Ok (docs_of system)) ->
    let out := collect_coating_candidates MPRester stability_threshold
                 include_oxides include_nitrides include_carbides
                 verbose self tr in
    warnings (snd (snd out)) = warnings tr
    /\ map Py.Ok (candidates (fst (snd out)))
       = flat_map (fun sys => map (make_candidate stability_threshold
                                     (fst sys) (snd sys))
                                  (docs_of (fst sys)))
                  (systems_to_search include_oxides include_nitrides
                     include_carbides)
    /\ (candidates (fst (snd out)) <> [] ->
        fst out = Py.Ok (_to_dataframe (candidates (fst (snd out))))).
Proof.
  intros M docs_of t o n c verbose self tr Hcomplete Hok out.
  destruct (run_all_succeed M t docs_of (systems_to_search o n c) Hcomplete
              ({| api_key := api_key self; candidates := [] |}, tr) Hok)
    as [Hw Hc].
  split; [exact Hw|]. split; [exact Hc|].
  intros Hne. unfold out, collect_coating_candidates. cbn [fst snd].
  destruct verbose; [|reflexivity].
  unfold out, collect_coating_candidates in Hne. cbn [fst snd] in Hne.
  destruct (candidates _) as [|x xs]; [contradiction|].
  reflexivity.
Qed.

Lemma collect_all_succeed_witness :
  let out := collect_coating_candidates steady_service 0.1 false false true true
               {| api_key := "secret"; candidates := [] |} quiet in
  warnings (snd (snd out)) = []
  /\ map chemical_system (candidates (fst (snd out))) = CARBIDES.
Proof.
  intros out.
  destruct (collect_all_succeed steady_service (fun s => [sample_doc s]) 0.1
              false false true true
              {| api_key := "secret"; candidates := [] |} quiet)
    as [Hw [Hc _]].
  - intros system. repeat constructor.
  - reflexivity.
  - split; [exact Hw|]. reflexivity.
Defined.

(** X8.  What the collector saves after a run.  Without candidates, saving
    the stable ones raises [KeyError] and saving all writes the table
    without columns.  With candidates, saving the stable ones writes the
    rows of the table whose flag is set, in the order of the table, lowest
    energy first, and each of them has an energy above hull of at most the
    threshold of the run; saving all writes the table. *)
Theorem save_to_csv_after_collect :
  forall (MPRester : string -> list string -> string -> Py.result (list SummaryDoc))
         (stability_threshold : Q)
         (include_oxides include_nitrides include_carbides verbose : bool)
         (self : Collector) (tr : Trace),
    let after := fst (snd (collect_coating_candidates MPRester stability_threshold
                             include_oxides include_nitrides include_carbides
                             verbose self tr)) in
    MaterialsProjectCollector_save_to_csv false after
    = Py.Ok (_to_dataframe (candidates after))
    /\ (candidates after = [] ->
        MaterialsProjectCollector_save_to_csv true after = Py.Raise Py.KeyError)
    /\ (candidates after <> [] ->
        exists rows,
          MaterialsProjectCollector_save_to_csv true after = Py.Ok (Frame rows)
          /\ map snd rows
             = filter is_stable (sort_values energy_ascending (candidates after))
          /\ Forall (fun c => (energy_above_hull c <= stability_threshold)%Q)
                    (map snd rows)
          /\ StronglySorted
               (fun a b => (energy_above_hull a <= energy_above_hull b)%Q)
               (map snd rows)).
Proof.
  intros M t o n c verbose self tr after.
  pose proof (collect_derived M t o n c verbose self tr) as Hd.
  fold after in Hd.
  split; [reflexivity|]. split.
  - intros Hnil. unfold MaterialsProjectCollector_save_to_csv.
    now rewrite Hnil.
  - intros Hne. unfold MaterialsProjectCollector_save_to_csv.
    destruct (candidates after) as [|x xs] eqn:Hc; [contradiction|].
    pose proof (_to_dataframe_records (x :: xs)) as Hrec.
    destruct (_to_dataframe (x :: xs)) as [|rows] eqn:Hdf; [discriminate|].
    cbn [records] in Hrec. eexists. split; [reflexivity|].
    assert (map snd (filter (fun r => is_stable (snd r)) rows)
            = filter is_stable (sort_values energy_ascending (x :: xs))) as Hsel.
    { rewrite <- Hrec. clear. induction rows as [|r rows IH]; [reflexivity|].
      simpl. destruct (is_stable (snd r)); simpl; now rewrite IH. }
    split; [exact Hsel|]. rewrite Hsel. split.
    + apply Forall_forall. intros cand Hin.
      apply filter_In in Hin as [Hin Hstable].
      apply (Permutation_in _ (sort_values_perm energy_ascending (x :: xs))) in Hin.
      rewrite Forall_forall in Hd. destruct (Hd cand Hin) as [Hs _].
      apply Qle_bool_iff. now rewrite <- Hs.
    + apply StronglySorted_filter, energy_sorted.
Qed.

Lemma save_to_csv_after_collect_witness :
  let after := fst (snd (collect_coating_candidates steady_service 0.01
                           true false false false
                           {| api_key := "secret"; candidates := [] |} quiet)) in
  MaterialsProjectCollector_save_to_csv true after = Py.Ok (Frame [])
  /\ len (_to_dataframe (candidates after)) = 10%nat.
Proof.
  intros after.
  destruct (save_to_csv_after_collect steady_service 0.01 true false false false
              {| api_key := "secret"; candidates := [] |} quiet)
    as [_ [_ Hsome]].
  destruct Hsome as [rows [Hsave [Hrows _]]]; [discriminate|].
  fold after in Hsave, Hrows. split; [|reflexivity].
  rewrite Hsave. f_equal. f_equal.
  destruct rows as [|r rows]; [reflexivity|]. discriminate Hrows.
Defined.

